(** * Germany severance calculator: the calculation engine of [app.py]

    A shallow embedding of the pure helper functions of [src/app.py]
    ([get_state_from_plz], [calculate_fuenftelregelung_tax],
    [calculate_scenario]) and of the recommendation solver that [main]
    runs on their output, followed by the properties the specification
    states about them.

    Conventions of the model.
    - Python integers (postal codes, month counts, child counts) are [Z].
    - Python numbers that hold money, rates or fractional months are
      modelled twice.  The main definitions take them as exact rationals
      ([Q], with equality [==]): this is the arithmetic the formulas are
      meant in, and general statements are proved there.  Module [B64]
      repeats the same code over binary64 floats, the arithmetic Python
      runs; it computes what the code returns on a concrete input, and
      shows where rounding makes the code leave the exact formulas.
    - A Python exception is the left injection of ExtLib's error monad
      [sum exn]; [/] raises [ZeroDivisionError] on a zero divisor, [int]
      raises [ValueError] on text that is not an integer literal, and
      [int] and [math.ceil] raise [OverflowError] on an infinity and
      [ValueError] on a NaN.
    - Text is an ASCII [string]. *)

From Stdlib Require Import ZArith QArith Qround Bool List String Ascii Lia Lqa.
From Stdlib Require Import DecimalString Qabs Floats.
From ExtLib Require Import Structures.Monad Structures.MonadExc Data.Monads.EitherMonad.
Import ListNotations.
Import MonadNotation.

Local Open Scope Z_scope.
Local Open Scope monad_scope.

#[local] Set Warnings "-inexact-float".

(** ** Exceptions *)

Inductive exn : Type :=
| ZeroDivisionError
| ValueError
| OverflowError.

(** A computation that returns an [A] or raises. *)
Abbreviation py := (sum exn).

Abbreviation Returns x := (@inr exn _ x).
Abbreviation Raises e := (@inl exn _ e).

(** ** Python primitives *)

Module Py.

(** [a / b] on numbers. *)
Definition div (a b : Q) : py Q :=
  if Qeq_bool b 0 then raise ZeroDivisionError else ret (a / b)%Q.

(** [a > b] and [a < b] on numbers. *)
Definition gt (a b : Q) : bool := negb (Qle_bool a b).
Definition lt (a b : Q) : bool := negb (Qle_bool b a).

(** [lo <= x <= hi] on integers. *)
Definition between (lo x hi : Z) : bool := (lo <=? x) && (x <=? hi).

(** [int(x)] on a number: truncation toward zero. *)
Definition int_of_number (x : Q) : Z := Z.quot (Qnum x) (Zpos (Qden x)).

(** [math.ceil(x)]. *)
Definition ceil (x : Q) : Z := Qceiling x.

(** [sum(...)] over integers. *)
Definition sum (l : list Z) : Z := fold_left Z.add l 0.

(** Characters that [int(text)] skips at both ends: tab, line feed,
    vertical tab, form feed, carriage return and space. *)
Definition is_space (c : ascii) : bool :=
  let n := Z.of_nat (nat_of_ascii c) in
  between 9 n 13 || (n =? 32).

Definition is_digit (c : ascii) : bool :=
  between 48 (Z.of_nat (nat_of_ascii c)) 57.

Definition digit_value (c : ascii) : Z := Z.of_nat (nat_of_ascii c) - 48.

Fixpoint lstrip (l : list ascii) : list ascii :=
  match l with
  | c :: l' => if is_space c then lstrip l' else l
  | [] => []
  end.

Definition strip (l : list ascii) : list ascii :=
  rev (lstrip (rev (lstrip l))).

(** Decimal digits, where single underscores may separate digits. *)
Fixpoint digits (acc : Z) (after_digit : bool) (l : list ascii) : option Z :=
  match l with
  | [] => if after_digit then Some acc else None
  | c :: l' =>
      if is_digit c then digits (10 * acc + digit_value c) true l'
      else if Ascii.eqb c "_" && after_digit then digits acc false l'
      else None
  end.

(** The integer literal grammar of [int(text)]: optional white space,
    optional sign, digits, optional white space. *)
Definition parse_int (s : string) : option Z :=
  match strip (list_ascii_of_string s) with
  | "-"%char :: l => option_map Z.opp (digits 0 false l)
  | "+"%char :: l => digits 0 false l
  | l => digits 0 false l
  end.

(** [int(text)]. *)
Definition int_of_str (s : string) : py Z :=
  match parse_int s with
  | Some n => ret n
  | None => raise ValueError
  end.

(** [len(text)]. *)
Definition len (s : string) : Z := Z.of_nat (String.length s).

(** Truth value of a text: non-empty. *)
Definition truthy (s : string) : bool :=
  match s with EmptyString => false | _ => true end.

End Py.

(** ** Region resolution *)

(** The tuple [(state_name, has_familiengeld, familiengeld_amount)]. *)
Definition region : Type := (string * bool * Z)%type.

(** What a caller may pass as [plz]: the text of the input box, or an
    integer. *)
Inductive plz_arg : Type :=
| PlzStr (s : string)
| PlzInt (n : Z).

(** [plz = int(plz)] *)
Definition int_of_plz (plz : plz_arg) : py Z :=
  match plz with
  | PlzStr s => Py.int_of_str s
  | PlzInt n => ret n
  end.

Section Rules.
Import Py.
Local Open Scope string_scope.

(** The [if]/[elif] chain of [get_state_from_plz], after [plz = int(plz)]. *)
Definition state_of_int (plz : Z) : region :=
  if between 80000 plz 87999 || between 89000 plz 89999 || between 91000 plz 94999 then
    ("Bayern (Bavaria)", true, 250)
  else if between 1000 plz 1999 || between 2600 plz 2999 || between 4000 plz 4999 then
    ("Sachsen (Saxony)", true, 200)
  else if between 96000 plz 99999 || between 7000 plz 7999 then
    ("Thüringen (Thuringia)", true, 200)
  else if between 10000 plz 14999 then
    ("Berlin", false, 0)
  else if between 3000 plz 3999 || between 14400 plz 16999 || between 19300 plz 19357 then
    ("Brandenburg", false, 0)
  else if between 17000 plz 19999 && negb (between 19300 plz 19357) then
    ("Mecklenburg-Vorpommern", false, 0)
  else if between 20000 plz 21999 || between 22000 plz 22999 || between 27000 plz 27999 then
    ("Hamburg", false, 0)
  else if between 24000 plz 25999 || between 23000 plz 23999 then
    ("Schleswig-Holstein", false, 0)
  else if between 28000 plz 28999
          || (between 26000 plz 27999 && negb (between 27000 plz 27999)) then
    ("Bremen", false, 0)
  else if between 26000 plz 27999 || between 29000 plz 31999
          || between 37000 plz 38999 || between 48000 plz 49999 then
    ("Niedersachsen (Lower Saxony)", false, 0)
  else if between 32000 plz 33999 || between 34000 plz 36999 || between 40000 plz 47999
          || between 50000 plz 53999 || between 57000 plz 59999 then
    ("Nordrhein-Westfalen (NRW)", false, 0)
  else if between 34000 plz 36999 || between 60000 plz 64999 || between 65000 plz 66999 then
    ("Hessen (Hesse)", false, 0)
  else if between 54000 plz 56999 || between 66000 plz 67999 then
    ("Rheinland-Pfalz (Rhineland-Palatinate)", false, 0)
  else if between 66000 plz 66999 then
    ("Saarland", false, 0)
  else if between 68000 plz 69999 || between 70000 plz 76999
          || between 77000 plz 79999 || between 88000 plz 88999 then
    ("Baden-Württemberg", false, 0)
  else if between 6000 plz 6999 || between 38000 plz 39999 then
    ("Sachsen-Anhalt (Saxony-Anhalt)", false, 0)
  else
    ("Unknown", false, 0).

(** The same ordered rule list with the two [and not (...)] clauses
    (Mecklenburg-Vorpommern and Bremen) removed. *)
Definition state_of_int_no_carveouts (plz : Z) : region :=
  if between 80000 plz 87999 || between 89000 plz 89999 || between 91000 plz 94999 then
    ("Bayern (Bavaria)", true, 250)
  else if between 1000 plz 1999 || between 2600 plz 2999 || between 4000 plz 4999 then
    ("Sachsen (Saxony)", true, 200)
  else if between 96000 plz 99999 || between 7000 plz 7999 then
    ("Thüringen (Thuringia)", true, 200)
  else if between 10000 plz 14999 then
    ("Berlin", false, 0)
  else if between 3000 plz 3999 || between 14400 plz 16999 || between 19300 plz 19357 then
    ("Brandenburg", false, 0)
  else if between 17000 plz 19999 then
    ("Mecklenburg-Vorpommern", false, 0)
  else if between 20000 plz 21999 || between 22000 plz 22999 || between 27000 plz 27999 then
    ("Hamburg", false, 0)
  else if between 24000 plz 25999 || between 23000 plz 23999 then
    ("Schleswig-Holstein", false, 0)
  else if between 28000 plz 28999 || between 26000 plz 27999 then
    ("Bremen", false, 0)
  else if between 26000 plz 27999 || between 29000 plz 31999
          || between 37000 plz 38999 || between 48000 plz 49999 then
    ("Niedersachsen (Lower Saxony)", false, 0)
  else if between 32000 plz 33999 || between 34000 plz 36999 || between 40000 plz 47999
          || between 50000 plz 53999 || between 57000 plz 59999 then
    ("Nordrhein-Westfalen (NRW)", false, 0)
  else if between 34000 plz 36999 || between 60000 plz 64999 || between 65000 plz 66999 then
    ("Hessen (Hesse)", false, 0)
  else if between 54000 plz 56999 || between 66000 plz 67999 then
    ("Rheinland-Pfalz (Rhineland-Palatinate)", false, 0)
  else if between 66000 plz 66999 then
    ("Saarland", false, 0)
  else if between 68000 plz 69999 || between 70000 plz 76999
          || between 77000 plz 79999 || between 88000 plz 88999 then
    ("Baden-Württemberg", false, 0)
  else if between 6000 plz 6999 || between 38000 plz 39999 then
    ("Sachsen-Anhalt (Saxony-Anhalt)", false, 0)
  else
    ("Unknown", false, 0).

(** The sentinel of the final [else] and of the caller's fallbacks. *)
Definition unknown_region : region := ("Unknown", false, 0).

End Rules.

(** [get_state_from_plz(plz)] *)
Definition get_state_from_plz (plz : plz_arg) : py region :=
  plz <- int_of_plz plz ;;
  ret (state_of_int plz).

(** [get_state_from_plz] over the rule list without the carve-outs. *)
Definition get_state_from_plz_no_carveouts (plz : plz_arg) : py region :=
  plz <- int_of_plz plz ;;
  ret (state_of_int_no_carveouts plz).

(** The call site in [main]:
    [if plz and len(plz) >= 4: try: get_state_from_plz(plz) except: Unknown
     else: Unknown]. *)
Definition main_resolve_region (plz : string) : py region :=
  if Py.truthy plz && (4 <=? Py.len plz) then
    catch (get_state_from_plz (PlzStr plz)) (fun _ => ret unknown_region)
  else
    ret unknown_region.

(** ** Severance tax *)

Coercion inject_Z : Z >-> Q.

Section Calculation.
Local Open Scope Q_scope.

(** [calculate_fuenftelregelung_tax(annual_salary, severance_amount,
    net_rate_on_salary)], returning
    [(net_severance, total_sev_tax, effective_rate)]. *)
Definition calculate_fuenftelregelung_tax
    (annual_salary severance_amount net_rate_on_salary : Q) : py (Q * Q * Q) :=
  let tax_rate_salary := 1 - net_rate_on_salary in
  let tax_on_salary := annual_salary * tax_rate_salary in
  fifth_of_severance <- Py.div severance_amount 5 ;;
  let combined_income := annual_salary + fifth_of_severance in
  let tax_on_combined := combined_income * tax_rate_salary in
  let tax_per_fifth := tax_on_combined - tax_on_salary in
  let total_sev_tax := tax_per_fifth * 5 in
  let net_severance := severance_amount - total_sev_tax in
  effective_rate <-
    (if Py.gt severance_amount 0 then Py.div total_sev_tax severance_amount
     else ret 0) ;;
  ret (net_severance, total_sev_tax, effective_rate).

(** The value that the assignments of [calculate_fuenftelregelung_tax]
    give to [total_sev_tax]: [tax_per_fifth * 5] with [tax_per_fifth],
    [tax_on_combined], [combined_income], [fifth_of_severance],
    [tax_on_salary] and [tax_rate_salary] written out. *)
Definition total_sev_tax_of (annual_salary severance_amount net_rate_on_salary : Q) : Q :=
  ((annual_salary + severance_amount / 5) * (1 - net_rate_on_salary)
   - annual_salary * (1 - net_rate_on_salary)) * 5.

(** ** Scenario *)

(** The dictionary that [calculate_scenario] returns, key by key. *)
Record scenario : Type := {
  monthly_gross : Q;
  monthly_net : Q;
  gross_severance : Q;
  sev_tax : Q;
  sev_tax_rate : Q;
  net_severance : Q;
  salary_2026 : Q;
  months_worked_2026 : Z;
  alg1_monthly : Q;
  alg1_2026 : Q;
  alg1_2027 : Q;
  months_alg1_2027 : Z;
  total_alg1_months : Z;
  kindergeld_monthly : Z;
  kindergeld_2026 : Z;
  kindergeld_2027 : Z;
  familiengeld_monthly : Z;
  familiengeld_2026 : Z;
  familiengeld_2027 : Z;
  total_2026 : Q;
  total_2027 : Q;
  income_percentage_2026 : Q;
  income_percentage_2027 : Q;
  total_2_years : Q;
  runway_months : Q;
  cash_after_exit : Q;
  cash_after_exit_2026 : Q;
  cash_after_exit_2027 : Q;
  total_income_after_exit : Q;
  sperrzeit_months : Z;
  state_name : string;
  has_familiengeld : bool;
  num_eligible_familiengeld : Z;
  months_remaining_2026 : Z;
  months_alg1_2026 : Z
}.

(** Truth value of the [child_ages] argument ([None] or a list). *)
Definition child_ages_truthy (child_ages : option (list Z)) : bool :=
  match child_ages with
  | Some (_ :: _) => true
  | _ => false
  end.

(** [sum(1 for age in child_ages if 1 <= age <= 3)] *)
Definition count_eligible (child_ages : option (list Z)) : Z :=
  match child_ages with
  | Some ages => Py.sum (map (fun _ => 1%Z) (filter (fun age => Py.between 1 age 3) ages))
  | None => 0%Z
  end.

(** [calculate_scenario(annual_salary, severance_months, tax_class,
    has_children, monthly_expenses, sperrzeit_months, num_children,
    state_name, has_familiengeld, familiengeld_amount, child_ages,
    months_worked_2026)] *)
Definition calculate_scenario
    (annual_salary severance_months : Q) (tax_class : string) (has_children : bool)
    (monthly_expenses : Q) (sperrzeit_months num_children : Z) (state_name : string)
    (has_familiengeld : bool) (familiengeld_amount : Z) (child_ages : option (list Z))
    (months_worked_2026 : Z) : py scenario :=
  let net_rate_salary :=
    if String.eqb tax_class "Tax Class 3 (Married)" then 0.67 else 0.60 in
  let alg1_rate := if has_children then 0.67 else 0.60 in
  let kindergeld_monthly := (if has_children then 250 * num_children else 0)%Z in
  let num_eligible_familiengeld :=
    if has_children && has_familiengeld && child_ages_truthy child_ages
    then count_eligible child_ages else 0%Z in
  let familiengeld_monthly :=
    (if has_familiengeld then familiengeld_amount * num_eligible_familiengeld else 0)%Z in
  monthly_gross <- Py.div annual_salary 12 ;;
  let monthly_net := monthly_gross * net_rate_salary in
  let gross_severance := monthly_gross * severance_months in
  '(net_severance, sev_tax, sev_tax_rate) <-
    calculate_fuenftelregelung_tax annual_salary gross_severance net_rate_salary ;;
  let salary_2026 := monthly_net * months_worked_2026 in
  let alg1_monthly := monthly_net * alg1_rate in
  let months_remaining_2026 := (12 - months_worked_2026)%Z in
  let months_alg1_2026 := Z.max 0 (months_remaining_2026 - sperrzeit_months) in
  let alg1_2026 := alg1_monthly * months_alg1_2026 in
  let kindergeld_2026 := (kindergeld_monthly * 12)%Z in
  let familiengeld_2026 := (familiengeld_monthly * 12)%Z in
  let months_alg1_2027 := Z.max 0 (12 - months_alg1_2026) in
  let alg1_2027 := alg1_monthly * months_alg1_2027 in
  let kindergeld_2027 := (kindergeld_monthly * 12)%Z in
  let familiengeld_2027 := (familiengeld_monthly * 12)%Z in
  let total_alg1_months := (months_alg1_2026 + months_alg1_2027)%Z in
  let total_2026 :=
    salary_2026 + net_severance + alg1_2026 + kindergeld_2026 + familiengeld_2026 in
  let total_2027 := alg1_2027 + kindergeld_2027 + familiengeld_2027 in
  let total_2_years := total_2026 + total_2027 in
  income_percentage_2026 <-
    (if Py.gt annual_salary 0
     then q <- Py.div total_2026 annual_salary ;; ret (q * 100)
     else ret 0) ;;
  income_percentage_2027 <-
    (if Py.gt annual_salary 0
     then q <- Py.div total_2027 annual_salary ;; ret (q * 100)
     else ret 0) ;;
  let cash_after_exit :=
    net_severance + alg1_2026 + alg1_2027 + kindergeld_2026 + kindergeld_2027
    + familiengeld_2026 + familiengeld_2027 in
  let cash_after_exit_2026 :=
    net_severance + alg1_2026 + kindergeld_2026 + familiengeld_2026 in
  let cash_after_exit_2027 := alg1_2027 + kindergeld_2027 + familiengeld_2027 in
  runway_months <-
    (if Py.gt monthly_expenses 0 then Py.div cash_after_exit monthly_expenses
     else ret 0) ;;
  let total_income_after_exit := cash_after_exit in
  ret {|
    monthly_gross := monthly_gross;
    monthly_net := monthly_net;
    gross_severance := gross_severance;
    sev_tax := sev_tax;
    sev_tax_rate := sev_tax_rate;
    net_severance := net_severance;
    salary_2026 := salary_2026;
    months_worked_2026 := months_worked_2026;
    alg1_monthly := alg1_monthly;
    alg1_2026 := alg1_2026;
    alg1_2027 := alg1_2027;
    months_alg1_2027 := months_alg1_2027;
    total_alg1_months := total_alg1_months;
    kindergeld_monthly := kindergeld_monthly;
    kindergeld_2026 := kindergeld_2026;
    kindergeld_2027 := kindergeld_2027;
    familiengeld_monthly := familiengeld_monthly;
    familiengeld_2026 := familiengeld_2026;
    familiengeld_2027 := familiengeld_2027;
    total_2026 := total_2026;
    total_2027 := total_2027;
    income_percentage_2026 := income_percentage_2026;
    income_percentage_2027 := income_percentage_2027;
    total_2_years := total_2_years;
    runway_months := runway_months;
    cash_after_exit := cash_after_exit;
    cash_after_exit_2026 := cash_after_exit_2026;
    cash_after_exit_2027 := cash_after_exit_2027;
    total_income_after_exit := total_income_after_exit;
    sperrzeit_months := sperrzeit_months;
    state_name := state_name;
    has_familiengeld := has_familiengeld;
    num_eligible_familiengeld := num_eligible_familiengeld;
    months_remaining_2026 := months_remaining_2026;
    months_alg1_2026 := months_alg1_2026
  |}.

(** ** Recommendation solver (in [main]) *)

(** [total_expenses_projected]: expenses for the months after exit in
    2026 plus twelve months of 2027. *)
Definition total_expenses_projected (monthly_expenses : Q) (months_worked_2026 : Z) : Q :=
  let months_after_exit_2026 := (12 - months_worked_2026)%Z in
  let expenses_2026 := monthly_expenses * months_after_exit_2026 in
  let expenses_2027 := monthly_expenses * 12 in
  expenses_2026 + expenses_2027.

(** [net_severance_rate] and [net_per_severance_month]. *)
Definition net_severance_rate (results : scenario) : py Q :=
  if Py.gt (gross_severance results) 0
  then Py.div (net_severance results) (gross_severance results)
  else ret 0.75.

Definition net_per_severance_month (results : scenario) : py Q :=
  net_severance_rate <- net_severance_rate results ;;
  ret (monthly_gross results * net_severance_rate).

(** The three candidates [(option_deficit, option_breakeven, option_surplus)]. *)
Record options : Type := {
  option_deficit : Z;
  option_breakeven : Z;
  option_surplus : Z
}.

Definition recommended_options
    (results : scenario) (monthly_expenses : Q) (months_worked_2026 : Z)
    (severance_months : Q) : py options :=
  let total_income_after_exit := cash_after_exit results in
  let total_expenses_projected :=
    total_expenses_projected monthly_expenses months_worked_2026 in
  net_per_severance_month <- net_per_severance_month results ;;
  let current_sev_months := severance_months in
  months_needed_for_breakeven <-
    Py.div (total_expenses_projected - total_income_after_exit) net_per_severance_month ;;
  let breakeven_months := current_sev_months + months_needed_for_breakeven in
  ret {|
    option_deficit := Z.max 1 (Py.int_of_number (breakeven_months - 1));
    option_breakeven := Z.max 1 (Py.ceil breakeven_months);
    option_surplus := Z.max 1 (Py.int_of_number (breakeven_months + 2))
  |}.

(** The engine as [main] runs it: resolve the region, compute the
    scenario (with its runway), then the recommendation. *)
Definition main_core
    (annual_salary : Q) (months_worked_2026 : Z) (severance_months : Q)
    (sperrzeit_months : Z) (plz tax_class : string) (has_children : bool)
    (num_children : Z) (child_ages : list Z) (monthly_expenses : Q)
    : py (scenario * options) :=
  '(state_name, has_familiengeld, familiengeld_amount) <- main_resolve_region plz ;;
  results <- calculate_scenario annual_salary severance_months tax_class has_children
               monthly_expenses sperrzeit_months num_children state_name
               has_familiengeld familiengeld_amount (Some child_ages)
               months_worked_2026 ;;
  opts <- recommended_options results monthly_expenses months_worked_2026
            severance_months ;;
  ret (results, opts).

End Calculation.

(** ** What [main] derives from the scenario for display *)

Section Reports.
Local Open Scope Q_scope.










End Reports.

(** ** The same code in binary64

    The definitions above compute with exact rationals.  The source
    computes with Python floats, which are IEEE 754 binary64 numbers; this
    module repeats the calculation over Rocq's primitive binary64 floats,
    operation by operation and in the source's order, so that a result of
    the real arithmetic can be computed on a concrete input.  Integers are
    converted where Python converts them, when they meet a float. *)

Module B64.
#[local] Set Warnings "-inexact-float".
Local Open Scope float_scope.

(** The float a Python integer becomes next to a float. *)
Definition of_int (z : Z) : float :=
  SF2Prim (binary_normalize prec emax z 0 false).

(** [a / b] *)
Definition div (a b : float) : py float :=
  if is_zero b then raise ZeroDivisionError else ret (a / b).

(** [a > b] and [a < b] *)
Definition gt (a b : float) : bool := b <? a.
Definition lt (a b : float) : bool := a <? b.

(** [int(x)]: truncation toward zero; [OverflowError] on an infinity and
    [ValueError] on a NaN. *)
Definition int_of_number (x : float) : py Z :=
  match Prim2SF x with
  | S754_zero _ => ret 0%Z
  | S754_finite s m e =>
      let v := (if 0 <=? e then Z.pos m * 2 ^ e else Z.pos m / 2 ^ (- e))%Z in
      ret (if s then - v else v)%Z
  | S754_infinity _ => raise OverflowError
  | S754_nan => raise ValueError
  end.

(** [math.ceil(x)] *)
Definition ceil (x : float) : py Z :=
  match Prim2SF x with
  | S754_zero _ => ret 0%Z
  | S754_finite s m e =>
      if (0 <=? e)%Z then ret (if s then - (Z.pos m * 2 ^ e) else Z.pos m * 2 ^ e)%Z
      else
        let q := (Z.pos m / 2 ^ (- e))%Z in
        let exact := (Z.pos m mod 2 ^ (- e) =? 0)%Z in
        ret (if s then - q else if exact then q else q + 1)%Z
  | S754_infinity _ => raise OverflowError
  | S754_nan => raise ValueError
  end.

(** [calculate_fuenftelregelung_tax] *)
Definition calculate_fuenftelregelung_tax
    (annual_salary severance_amount net_rate_on_salary : float)
    : py (float * float * float) :=
  let tax_rate_salary := 1 - net_rate_on_salary in
  let tax_on_salary := annual_salary * tax_rate_salary in
  fifth_of_severance <- div severance_amount 5 ;;
  let combined_income := annual_salary + fifth_of_severance in
  let tax_on_combined := combined_income * tax_rate_salary in
  let tax_per_fifth := tax_on_combined - tax_on_salary in
  let total_sev_tax := tax_per_fifth * 5 in
  let net_severance := severance_amount - total_sev_tax in
  effective_rate <-
    (if gt severance_amount 0 then div total_sev_tax severance_amount
     else ret 0) ;;
  ret (net_severance, total_sev_tax, effective_rate).

(** The dictionary that [calculate_scenario] returns. *)
Record scenario : Type := {
  monthly_gross : float;
  monthly_net : float;
  gross_severance : float;
  sev_tax : float;
  sev_tax_rate : float;
  net_severance : float;
  salary_2026 : float;
  months_worked_2026 : Z;
  alg1_monthly : float;
  alg1_2026 : float;
  alg1_2027 : float;
  months_alg1_2027 : Z;
  total_alg1_months : Z;
  kindergeld_monthly : Z;
  kindergeld_2026 : Z;
  kindergeld_2027 : Z;
  familiengeld_monthly : Z;
  familiengeld_2026 : Z;
  familiengeld_2027 : Z;
  total_2026 : float;
  total_2027 : float;
  income_percentage_2026 : float;
  income_percentage_2027 : float;
  total_2_years : float;
  runway_months : float;
  cash_after_exit : float;
  cash_after_exit_2026 : float;
  cash_after_exit_2027 : float;
  total_income_after_exit : float;
  sperrzeit_months : Z;
  state_name : string;
  has_familiengeld : bool;
  num_eligible_familiengeld : Z;
  months_remaining_2026 : Z;
  months_alg1_2026 : Z
}.

(** [calculate_scenario] *)
Definition calculate_scenario
    (annual_salary severance_months : float) (tax_class : string) (has_children : bool)
    (monthly_expenses : float) (sperrzeit_months num_children : Z) (state_name : string)
    (has_familiengeld : bool) (familiengeld_amount : Z) (child_ages : option (list Z))
    (months_worked_2026 : Z) : py scenario :=
  let net_rate_salary :=
    if String.eqb tax_class "Tax Class 3 (Married)" then 0.67 else 0.60 in
  let alg1_rate := if has_children then 0.67 else 0.60 in
  let kindergeld_monthly := (if has_children then 250 * num_children else 0)%Z in
  let num_eligible_familiengeld :=
    if has_children && has_familiengeld && child_ages_truthy child_ages
    then count_eligible child_ages else 0%Z in
  let familiengeld_monthly :=
    (if has_familiengeld then familiengeld_amount * num_eligible_familiengeld else 0)%Z in
  monthly_gross <- div annual_salary 12 ;;
  let monthly_net := monthly_gross * net_rate_salary in
  let gross_severance := monthly_gross * severance_months in
  '(net_severance, sev_tax, sev_tax_rate) <-
    calculate_fuenftelregelung_tax annual_salary gross_severance net_rate_salary ;;
  let salary_2026 := monthly_net * of_int months_worked_2026 in
  let alg1_monthly := monthly_net * alg1_rate in
  let months_remaining_2026 := (12 - months_worked_2026)%Z in
  let months_alg1_2026 := Z.max 0 (months_remaining_2026 - sperrzeit_months) in
  let alg1_2026 := alg1_monthly * of_int months_alg1_2026 in
  let kindergeld_2026 := (kindergeld_monthly * 12)%Z in
  let familiengeld_2026 := (familiengeld_monthly * 12)%Z in
  let months_alg1_2027 := Z.max 0 (12 - months_alg1_2026) in
  let alg1_2027 := alg1_monthly * of_int months_alg1_2027 in
  let kindergeld_2027 := (kindergeld_monthly * 12)%Z in
  let familiengeld_2027 := (familiengeld_monthly * 12)%Z in
  let total_alg1_months := (months_alg1_2026 + months_alg1_2027)%Z in
  let total_2026 :=
    salary_2026 + net_severance + alg1_2026 + of_int kindergeld_2026
    + of_int familiengeld_2026 in
  let total_2027 := alg1_2027 + of_int kindergeld_2027 + of_int familiengeld_2027 in
  let total_2_years := total_2026 + total_2027 in
  income_percentage_2026 <-
    (if gt annual_salary 0
     then q <- div total_2026 annual_salary ;; ret (q * 100)
     else ret 0) ;;
  income_percentage_2027 <-
    (if gt annual_salary 0
     then q <- div total_2027 annual_salary ;; ret (q * 100)
     else ret 0) ;;
  let cash_after_exit :=
    net_severance + alg1_2026 + alg1_2027 + of_int kindergeld_2026
    + of_int kindergeld_2027 + of_int familiengeld_2026 + of_int familiengeld_2027 in
  let cash_after_exit_2026 :=
    net_severance + alg1_2026 + of_int kindergeld_2026 + of_int familiengeld_2026 in
  let cash_after_exit_2027 :=
    alg1_2027 + of_int kindergeld_2027 + of_int familiengeld_2027 in
  runway_months <-
    (if gt monthly_expenses 0 then div cash_after_exit monthly_expenses
     else ret 0) ;;
  let total_income_after_exit := cash_after_exit in
  ret {|
    monthly_gross := monthly_gross;
    monthly_net := monthly_net;
    gross_severance := gross_severance;
    sev_tax := sev_tax;
    sev_tax_rate := sev_tax_rate;
    net_severance := net_severance;
    salary_2026 := salary_2026;
    months_worked_2026 := months_worked_2026;
    alg1_monthly := alg1_monthly;
    alg1_2026 := alg1_2026;
    alg1_2027 := alg1_2027;
    months_alg1_2027 := months_alg1_2027;
    total_alg1_months := total_alg1_months;
    kindergeld_monthly := kindergeld_monthly;
    kindergeld_2026 := kindergeld_2026;
    kindergeld_2027 := kindergeld_2027;
    familiengeld_monthly := familiengeld_monthly;
    familiengeld_2026 := familiengeld_2026;
    familiengeld_2027 := familiengeld_2027;
    total_2026 := total_2026;
    total_2027 := total_2027;
    income_percentage_2026 := income_percentage_2026;
    income_percentage_2027 := income_percentage_2027;
    total_2_years := total_2_years;
    runway_months := runway_months;
    cash_after_exit := cash_after_exit;
    cash_after_exit_2026 := cash_after_exit_2026;
    cash_after_exit_2027 := cash_after_exit_2027;
    total_income_after_exit := total_income_after_exit;
    sperrzeit_months := sperrzeit_months;
    state_name := state_name;
    has_familiengeld := has_familiengeld;
    num_eligible_familiengeld := num_eligible_familiengeld;
    months_remaining_2026 := months_remaining_2026;
    months_alg1_2026 := months_alg1_2026
  |}.

(** The recommendation solver of [main]. *)
Definition total_expenses_projected
    (monthly_expenses : float) (months_worked_2026 : Z) : float :=
  let months_after_exit_2026 := (12 - months_worked_2026)%Z in
  let expenses_2026 := monthly_expenses * of_int months_after_exit_2026 in
  let expenses_2027 := monthly_expenses * 12 in
  expenses_2026 + expenses_2027.

Definition net_severance_rate (results : scenario) : py float :=
  if gt (gross_severance results) 0
  then div (net_severance results) (gross_severance results)
  else ret 0.75.

Definition net_per_severance_month (results : scenario) : py float :=
  net_severance_rate <- net_severance_rate results ;;
  ret (monthly_gross results * net_severance_rate).

(** [breakeven_months] *)
Definition breakeven_months
    (results : scenario) (monthly_expenses : float) (months_worked_2026 : Z)
    (severance_months : float) : py float :=
  let total_income_after_exit := cash_after_exit results in
  let total_expenses_projected :=
    total_expenses_projected monthly_expenses months_worked_2026 in
  net_per_severance_month <- net_per_severance_month results ;;
  let current_sev_months := severance_months in
  months_needed_for_breakeven <-
    div (total_expenses_projected - total_income_after_exit) net_per_severance_month ;;
  ret (current_sev_months + months_needed_for_breakeven).

Definition recommended_options
    (results : scenario) (monthly_expenses : float) (months_worked_2026 : Z)
    (severance_months : float) : py options :=
  breakeven_months <-
    breakeven_months results monthly_expenses months_worked_2026 severance_months ;;
  deficit <- int_of_number (breakeven_months - 1) ;;
  breakeven <- ceil breakeven_months ;;
  surplus <- int_of_number (breakeven_months + 2) ;;
  ret {|
    option_deficit := Z.max 1 deficit;
    option_breakeven := Z.max 1 breakeven;
    option_surplus := Z.max 1 surplus
  |}.

(** The engine as [main] runs it. *)
Definition main_core
    (annual_salary : float) (months_worked_2026 : Z) (severance_months : float)
    (sperrzeit_months : Z) (plz tax_class : string) (has_children : bool)
    (num_children : Z) (child_ages : list Z) (monthly_expenses : float)
    : py (scenario * options) :=
  '(state_name, has_familiengeld, familiengeld_amount) <- main_resolve_region plz ;;
  results <- calculate_scenario annual_salary severance_months tax_class has_children
               monthly_expenses sperrzeit_months num_children state_name
               has_familiengeld familiengeld_amount (Some child_ages)
               months_worked_2026 ;;
  opts <- recommended_options results monthly_expenses months_worked_2026
            severance_months ;;
  ret (results, opts).

End B64.

(** ** Exhaustive checks over the five-digit codes *)

(** [check_codes fuel n p] tests [p] on the [fuel] integers from [n] on. *)
Fixpoint check_codes (fuel : nat) (n : Z) (p : Z -> bool) : bool :=
  match fuel with
  | O => true
  | S fuel' => p n && check_codes fuel' (n + 1) p
  end.

(** * Properties *)

(** ** Region resolution *)

Section RegionFacts.
Import Py.

(** Closes a goal on [state_of_int n] once [n] is confined to a range
    that decides every comparison of the chain. *)
Local Ltac decide_chain :=
  cbv beta delta [state_of_int state_of_int_no_carveouts unknown_region between];
  repeat match goal with
    | |- context [(?a <=? ?b)%Z] => destruct (Z.leb_spec a b); try lia
    end;
  reflexivity.

(** Steps over a branch whose test is the same on both sides. *)
Local Ltac same_branch :=
  match goal with
  | |- (if ?c then _ else _) = (if ?c then _ else _) =>
      let E := fresh "E" in destruct c eqn:E; [reflexivity|]
  end.

Lemma state_of_int_brandenburg (n : Z) :
  19300 <= n <= 19357 -> state_of_int n = ("Brandenburg"%string, false, 0).
Proof. intros H. decide_chain. Qed.

Lemma state_of_int_hamburg (n : Z) :
  27000 <= n <= 27999 -> state_of_int n = ("Hamburg"%string, false, 0).
Proof. intros H. decide_chain. Qed.

Lemma state_of_int_out_of_range (n : Z) :
  n < 1000 \/ 99999 < n -> state_of_int n = unknown_region.
Proof. intros H. decide_chain. Qed.

(** Under first-match order neither carve-out is ever consulted with
    a postal code inside it. *)
Lemma state_of_int_carveouts_redundant (n : Z) :
  state_of_int n = state_of_int_no_carveouts n.
Proof.
  unfold state_of_int, state_of_int_no_carveouts.
  (* Bayern, Sachsen, Thueringen, Berlin, Brandenburg *)
  do 5 same_branch.
  match goal with
  | H : _ || Py.between 19300 n 19357 = false |- _ =>
      apply orb_false_iff in H as [_ Hbb]
  end.
  rewrite Hbb; cbn [negb]; rewrite andb_true_r.
  (* Mecklenburg-Vorpommern, Hamburg *)
  do 2 same_branch.
  match goal with
  | H : _ || Py.between 27000 n 27999 = false |- _ =>
      apply orb_false_iff in H as [_ Hhh]
  end.
  (* Schleswig-Holstein *)
  same_branch.
  rewrite Hhh; cbn [negb]; rewrite andb_true_r.
  (* Bremen and the branches after it *)
  repeat same_branch.
  reflexivity.
Qed.

End RegionFacts.

(** C9. For every integer postal code in 0..99999, [get_state_from_plz]
    returns what the same ordered rule list returns with both carve-outs
    removed: the codes 19300..19357 are taken by the earlier Brandenburg
    branch and the codes 27000..27999 by the earlier Hamburg branch. *)
Theorem get_state_from_plz_carveouts_redundant (n : Z) :
  0 <= n <= 99999 ->
  get_state_from_plz (PlzInt n) = get_state_from_plz_no_carveouts (PlzInt n)
  /\ (19300 <= n <= 19357 ->
      get_state_from_plz (PlzInt n) = Returns ("Brandenburg"%string, false, 0))
  /\ (27000 <= n <= 27999 ->
      get_state_from_plz (PlzInt n) = Returns ("Hamburg"%string, false, 0)).
Proof.
  intros _. unfold get_state_from_plz, get_state_from_plz_no_carveouts.
  cbn [int_of_plz bind ret Monad_either].
  repeat split.
  - now rewrite state_of_int_carveouts_redundant.
  - intros H. now rewrite state_of_int_brandenburg.
  - intros H. now rewrite state_of_int_hamburg.
Qed.

Lemma get_state_from_plz_carveouts_redundant_witness :
  get_state_from_plz (PlzInt 19300) = get_state_from_plz_no_carveouts (PlzInt 19300)
  /\ get_state_from_plz (PlzInt 19300) = Returns ("Brandenburg"%string, false, 0).
Proof.
  destruct (get_state_from_plz_carveouts_redundant 19300 ltac:(lia)) as (H1 & H2 & _).
  split; [exact H1 | apply H2; lia].
Defined.


(** C4, as the code has it. Region resolution at the call site in [main]
    (length guard, then [get_state_from_plz] inside [try]/[except]) never
    raises; for a malformed text, and for an integer below 1000 or above
    99999, it yields the sentinel [("Unknown", False, 0)].  On a malformed
    text [get_state_from_plz] itself raises [ValueError], which that call
    site catches; on an out-of-range integer it returns the sentinel. *)
Theorem main_resolve_region_total (plz : string) :
  (exists r, main_resolve_region plz = Returns r)
  /\ (Py.parse_int plz = None ->
      get_state_from_plz (PlzStr plz) = Raises ValueError
      /\ main_resolve_region plz = Returns unknown_region)
  /\ (forall n, Py.parse_int plz = Some n -> n < 1000 \/ 99999 < n ->
      get_state_from_plz (PlzStr plz) = Returns unknown_region
      /\ main_resolve_region plz = Returns unknown_region).
Proof.
  unfold main_resolve_region, get_state_from_plz, int_of_plz, Py.int_of_str.
  destruct (Py.parse_int plz) as [n|] eqn:Hp;
    cbn [bind ret raise catch Monad_either Exception_either];
    destruct (Py.truthy plz && (4 <=? Py.len plz)).
  all: split; [eexists; reflexivity|]; split.
  all: try (intros H; discriminate H).
  all: try (intros ? H; discriminate H).
  all: try (intros _; split; reflexivity).
  all: intros m Hm Hr; injection Hm as <-;
    rewrite (state_of_int_out_of_range n Hr); split; reflexivity.
Qed.

Lemma main_resolve_region_total_witness :
  get_state_from_plz (PlzStr "abcde") = Raises ValueError
  /\ main_resolve_region "abcde" = Returns unknown_region
  /\ get_state_from_plz (PlzStr "-1234") = Returns unknown_region.
Proof.
  destruct (main_resolve_region_total "abcde") as (_ & H & _).
  destruct (main_resolve_region_total "-1234") as (_ & _ & H').
  destruct (H eq_refl) as [H1 H2].
  destruct (H' (-1234) eq_refl ltac:(lia)) as [H3 _].
  repeat split; assumption.
Defined.

(** C4, as stated, fails: on a non-numeric text [get_state_from_plz]
    raises [ValueError] to its caller. *)
Lemma get_state_from_plz_raises :
  get_state_from_plz (PlzStr "abcde") = Raises ValueError
  /\ ~ (forall plz, exists r, get_state_from_plz plz = Returns r).
Proof.
  split; [reflexivity|].
  intros H. destruct (H (PlzStr "abcde")) as [r Hr]. discriminate Hr.
Qed.

(** ** Arithmetic primitives *)

Section PrimitiveFacts.
Local Open Scope Q_scope.

Lemma gt_true (a b : Q) : Py.gt a b = true <-> b < a.
Proof.
  unfold Py.gt. rewrite negb_true_iff, <- not_true_iff_false, Qle_bool_iff.
  split; [apply Qnot_le_lt | apply Qlt_not_le].
Qed.

Lemma gt_false (a b : Q) : Py.gt a b = false <-> a <= b.
Proof.
  unfold Py.gt. now rewrite negb_false_iff, Qle_bool_iff.
Qed.

Lemma div_returns (a b : Q) : ~ b == 0 -> Py.div a b = Returns (a / b).
Proof.
  intros Hb. unfold Py.div.
  destruct (Qeq_bool b 0) eqn:E; [|reflexivity].
  apply Qeq_bool_iff in E. contradiction.
Qed.

Lemma div_raises (a b : Q) : b == 0 -> Py.div a b = Raises ZeroDivisionError.
Proof.
  intros Hb. unfold Py.div. apply Qeq_bool_iff in Hb. now rewrite Hb.
Qed.

(** A guarded division [a / b if b > 0 else d] never raises. *)
Lemma guarded_div_returns (a b d : Q) :
  (if Py.gt b 0 then Py.div a b else Returns d)
  = Returns (if Py.gt b 0 then a / b else d).
Proof.
  destruct (Py.gt b 0) eqn:E; [|reflexivity].
  apply gt_true in E. apply div_returns. intros H. rewrite H in E.
  now apply Qlt_irrefl in E.
Qed.

End PrimitiveFacts.

(** ** Severance tax *)

Section TaxFacts.
Local Open Scope Q_scope.

Lemma calculate_fuenftelregelung_tax_returns (a s n : Q) :
  calculate_fuenftelregelung_tax a s n
  = Returns (s - total_sev_tax_of a s n,
             total_sev_tax_of a s n,
             if Py.gt s 0 then total_sev_tax_of a s n / s else 0).
Proof.
  unfold calculate_fuenftelregelung_tax.
  rewrite (div_returns s 5) by discriminate.
  cbn [bind ret Monad_either].
  fold (total_sev_tax_of a s n).
  now rewrite guarded_div_returns.
Qed.

Lemma total_sev_tax_of_flat (a s n : Q) : total_sev_tax_of a s n == s * (1 - n).
Proof. unfold total_sev_tax_of. field. Qed.

End TaxFacts.

(** C2. For annual salary > 0, gross severance >= 0 and a net rate in
    (0,1), the two-step construction of [calculate_fuenftelregelung_tax]
    (add a fifth of the severance to the salary, take the tax delta at rate
    [1 - net_rate], multiply by 5) returns a total tax equal, in exact
    arithmetic, to [severance * (1 - net_rate)], and net severance plus
    total tax is the gross severance. *)
Theorem fuenftelregelung_tax_is_flat (annual_salary severance_amount net_rate : Q) :
  (0 < annual_salary)%Q -> (0 <= severance_amount)%Q ->
  (0 < net_rate)%Q -> (net_rate < 1)%Q ->
  exists net_severance total_sev_tax effective_rate,
    calculate_fuenftelregelung_tax annual_salary severance_amount net_rate
    = Returns (net_severance, total_sev_tax, effective_rate)
    /\ (total_sev_tax == severance_amount * (1 - net_rate))%Q
    /\ (net_severance + total_sev_tax == severance_amount)%Q.
Proof.
  intros _ _ _ _.
  rewrite calculate_fuenftelregelung_tax_returns.
  do 3 eexists. split; [reflexivity|]. split.
  - apply total_sev_tax_of_flat.
  - ring.
Qed.

Lemma fuenftelregelung_tax_is_flat_witness :
  exists net_severance total_sev_tax effective_rate,
    calculate_fuenftelregelung_tax 90000 45000 0.67
    = Returns (net_severance, total_sev_tax, effective_rate)
    /\ (total_sev_tax == 45000 * (1 - 0.67))%Q
    /\ (net_severance + total_sev_tax == 45000)%Q.
Proof.
  apply (fuenftelregelung_tax_is_flat 90000 45000 0.67); reflexivity || discriminate.
Defined.

(** C8. For gross severance 0 (any annual salary >= 0, net rate in
    (0,1)), [calculate_fuenftelregelung_tax] returns, without raising, an
    effective rate of 0 and a net severance of 0. *)
Theorem fuenftelregelung_tax_zero_severance (annual_salary severance_amount net_rate : Q) :
  (0 <= annual_salary)%Q -> (severance_amount == 0)%Q ->
  (0 < net_rate)%Q -> (net_rate < 1)%Q ->
  exists net_severance total_sev_tax effective_rate,
    calculate_fuenftelregelung_tax annual_salary severance_amount net_rate
    = Returns (net_severance, total_sev_tax, effective_rate)
    /\ effective_rate = 0%Q
    /\ (net_severance == 0)%Q.
Proof.
  intros _ Hs _ _.
  rewrite calculate_fuenftelregelung_tax_returns.
  do 3 eexists. split; [reflexivity|]. split.
  - replace (Py.gt severance_amount 0) with false; [reflexivity|].
    symmetry. apply gt_false. rewrite Hs. apply Qle_refl.
  - rewrite total_sev_tax_of_flat, Hs. ring.
Qed.

Lemma fuenftelregelung_tax_zero_severance_witness :
  exists net_severance total_sev_tax effective_rate,
    calculate_fuenftelregelung_tax 90000 0 0.67
    = Returns (net_severance, total_sev_tax, effective_rate)
    /\ effective_rate = 0%Q
    /\ (net_severance == 0)%Q.
Proof.
  apply (fuenftelregelung_tax_zero_severance 90000 0 0.67); reflexivity || discriminate.
Defined.

(** ** Scenario *)

Section ScenarioFacts.
Local Open Scope Q_scope.

Variables (annual_salary severance_months : Q) (tax_class : string).
Variables (has_children : bool) (monthly_expenses : Q).
Variables (sperrzeit num_children : Z) (state : string).
Variables (has_fg : bool) (fg_amount : Z) (child_ages : option (list Z)).
Variable months_worked : Z.

(** [calculate_scenario] never raises, and the fields of the dictionary
    it returns are tied to the arguments and to one another by the
    assignments of the source. *)
Lemma calculate_scenario_returns :
  exists r,
    calculate_scenario annual_salary severance_months tax_class has_children
      monthly_expenses sperrzeit num_children state has_fg fg_amount child_ages
      months_worked = Returns r
    /\ monthly_gross r = annual_salary / 12
    /\ monthly_net r
       = monthly_gross r
         * (if String.eqb tax_class "Tax Class 3 (Married)" then 0.67 else 0.60)
    /\ gross_severance r = monthly_gross r * severance_months
    /\ sev_tax r
       = total_sev_tax_of annual_salary (gross_severance r)
           (if String.eqb tax_class "Tax Class 3 (Married)" then 0.67 else 0.60)
    /\ net_severance r = gross_severance r - sev_tax r
    /\ sev_tax_rate r
       = (if Py.gt (gross_severance r) 0 then sev_tax r / gross_severance r else 0)
    /\ alg1_monthly r = monthly_net r * (if has_children then 0.67 else 0.60)
    /\ months_remaining_2026 r = (12 - months_worked)%Z
    /\ months_alg1_2026 r = Z.max 0 (12 - months_worked - sperrzeit)
    /\ months_alg1_2027 r = Z.max 0 (12 - months_alg1_2026 r)
    /\ total_alg1_months r = (months_alg1_2026 r + months_alg1_2027 r)%Z
    /\ alg1_2026 r = alg1_monthly r * months_alg1_2026 r
    /\ alg1_2027 r = alg1_monthly r * months_alg1_2027 r
    /\ kindergeld_monthly r = (if has_children then 250 * num_children else 0)%Z
    /\ kindergeld_2026 r = (kindergeld_monthly r * 12)%Z
    /\ kindergeld_2027 r = (kindergeld_monthly r * 12)%Z
    /\ familiengeld_monthly r
       = (if has_fg
          then fg_amount
               * (if has_children && has_fg && child_ages_truthy child_ages
                  then count_eligible child_ages else 0)
          else 0)%Z
    /\ familiengeld_2026 r = (familiengeld_monthly r * 12)%Z
    /\ familiengeld_2027 r = (familiengeld_monthly r * 12)%Z
    /\ cash_after_exit r
       = net_severance r + alg1_2026 r + alg1_2027 r + kindergeld_2026 r
         + kindergeld_2027 r + familiengeld_2026 r + familiengeld_2027 r
    /\ runway_months r
       = (if Py.gt monthly_expenses 0 then cash_after_exit r / monthly_expenses else 0).
Proof.
  unfold calculate_scenario.
  rewrite (div_returns annual_salary 12) by discriminate.
  cbn [bind ret Monad_either].
  rewrite calculate_fuenftelregelung_tax_returns.
  cbn [bind ret Monad_either].
  destruct (Py.gt annual_salary 0) eqn:Hs.
  - apply gt_true in Hs.
    assert (Hnz : ~ annual_salary == 0)
      by (intros H; rewrite H in Hs; now apply Qlt_irrefl in Hs).
    rewrite !(div_returns _ annual_salary Hnz).
    cbn [bind ret Monad_either].
    rewrite guarded_div_returns.
    eexists; split; [reflexivity|].
    cbn -[Qplus Qmult Qminus Qdiv Z.mul Z.sub Z.add Z.max inject_Z].
    repeat split.
  - rewrite guarded_div_returns.
    eexists; split; [reflexivity|].
    cbn -[Qplus Qmult Qminus Qdiv Z.mul Z.sub Z.add Z.max inject_Z].
    repeat split.
Qed.

End ScenarioFacts.


(** C1. For months worked in 1..12 and a sperrzeit in 0..6,
    [calculate_scenario] allocates [max(0, 12 - months_worked - sperrzeit)]
    benefit months to the exit year, and the exit-year and following-year
    benefit months together are at most 12. *)
Theorem benefit_months_capped
    (annual_salary severance_months : Q) (tax_class : string) (has_children : bool)
    (monthly_expenses : Q) (sperrzeit num_children : Z) (state : string)
    (has_fg : bool) (fg_amount : Z) (child_ages : option (list Z)) (months_worked : Z) :
  1 <= months_worked <= 12 -> 0 <= sperrzeit <= 6 ->
  exists r,
    calculate_scenario annual_salary severance_months tax_class has_children
      monthly_expenses sperrzeit num_children state has_fg fg_amount child_ages
      months_worked = Returns r
    /\ months_alg1_2026 r = Z.max 0 (12 - months_worked - sperrzeit)
    /\ months_alg1_2026 r + months_alg1_2027 r <= 12.
Proof.
  intros Hw Hs.
  destruct (calculate_scenario_returns annual_salary severance_months tax_class
              has_children monthly_expenses sperrzeit num_children state has_fg
              fg_amount child_ages months_worked) as (r & Hr & H).
  decompose [and] H; clear H.
  exists r. repeat split; [assumption | assumption | lia].
Qed.

Lemma benefit_months_capped_witness :
  exists r,
    calculate_scenario 90000 6 "Tax Class 3 (Married)" false 3000 3 0
      "Bayern (Bavaria)" true 250 (Some []) 10 = Returns r
    /\ months_alg1_2026 r = Z.max 0 (12 - 10 - 3)
    /\ months_alg1_2026 r + months_alg1_2027 r <= 12.
Proof.
  apply benefit_months_capped; lia.
Defined.

(** C10. For months worked in 1..12 and a sperrzeit in 0..6, the benefit
    months of the two years add up to exactly 12: work period and sperrzeit
    move benefit months into the following year and never shorten the
    total. *)
Theorem benefit_months_total_is_12
    (annual_salary severance_months : Q) (tax_class : string) (has_children : bool)
    (monthly_expenses : Q) (sperrzeit num_children : Z) (state : string)
    (has_fg : bool) (fg_amount : Z) (child_ages : option (list Z)) (months_worked : Z) :
  1 <= months_worked <= 12 -> 0 <= sperrzeit <= 6 ->
  exists r,
    calculate_scenario annual_salary severance_months tax_class has_children
      monthly_expenses sperrzeit num_children state has_fg fg_amount child_ages
      months_worked = Returns r
    /\ months_alg1_2026 r + months_alg1_2027 r = 12
    /\ total_alg1_months r = 12
    /\ months_alg1_2027 r = 12 - months_alg1_2026 r.
Proof.
  intros Hw Hs.
  destruct (calculate_scenario_returns annual_salary severance_months tax_class
              has_children monthly_expenses sperrzeit num_children state has_fg
              fg_amount child_ages months_worked) as (r & Hr & H).
  decompose [and] H; clear H.
  exists r. repeat split; [assumption | lia | lia | lia].
Qed.

Lemma benefit_months_total_is_12_witness :
  exists r,
    calculate_scenario 90000 6 "Tax Class 3 (Married)" false 3000 6 0
      "Bayern (Bavaria)" true 250 (Some []) 12 = Returns r
    /\ months_alg1_2026 r + months_alg1_2027 r = 12
    /\ total_alg1_months r = 12
    /\ months_alg1_2027 r = 12 - months_alg1_2026 r.
Proof.
  apply benefit_months_total_is_12; lia.
Defined.




(** C7. Salary 90000, severance 6 months, tax class 3 (net rate 0.67), no
    children, postal code 89231, expenses 3000 a month, no sperrzeit, 6
    months worked in the exit year: the resolver returns Bayern, the
    monthly gross is 7500, the gross severance 45000, the benefit months
    are 6 in the exit year and 6 in the following year, and the effective
    severance tax rate is strictly between 0.20 and 0.45. *)
Theorem reference_scenario :
  get_state_from_plz (PlzStr "89231") = Returns ("Bayern (Bavaria)"%string, true, 250)
  /\ exists r,
       calculate_scenario 90000 6 "Tax Class 3 (Married)" false 3000 0 0
         "Bayern (Bavaria)" true 250 (Some []) 6 = Returns r
       /\ (monthly_gross r == 7500)%Q
       /\ (gross_severance r == 45000)%Q
       /\ months_alg1_2026 r = 6
       /\ months_alg1_2027 r = 6
       /\ (0.20 < sev_tax_rate r)%Q
       /\ (sev_tax_rate r < 0.45)%Q.
Proof.
  split; [reflexivity|].
  eexists. split; [vm_compute; reflexivity|].
  repeat split.
Qed.

(** ** Recommendation solver *)

Section RoundingFacts.



End RoundingFacts.




(** ** End to end *)

Section EndToEnd.
Local Open Scope Q_scope.


End EndToEnd.





(** * Further properties of the code *)

(** ** The postal-code table *)

Section TableFacts.
Import Py.
Local Open Scope string_scope.
Local Open Scope Z_scope.

(** Splits the chain of [state_of_int] at its outermost test. *)
Local Ltac split_chain tac :=
  repeat match goal with
    | |- context [state_of_int] => unfold state_of_int
    | |- ?P (if ?c then _ else _) => destruct c eqn:?; [solve [tac] |]
    end.

(** Decides every comparison of the chain from bounds on [n]. *)
Local Ltac decide_tests :=
  cbv beta delta [state_of_int unknown_region between];
  repeat match goal with
    | |- context [(?a <=? ?b)%Z] => destruct (Z.leb_spec a b); try lia
    end.

(** Every result of the chain is one of seventeen tuples. *)
Lemma state_of_int_cases (n : Z) :
  In (state_of_int n)
    [("Bayern (Bavaria)", true, 250); ("Sachsen (Saxony)", true, 200);
     ("Thüringen (Thuringia)", true, 200); ("Berlin", false, 0);
     ("Brandenburg", false, 0); ("Mecklenburg-Vorpommern", false, 0);
     ("Hamburg", false, 0); ("Schleswig-Holstein", false, 0); ("Bremen", false, 0);
     ("Niedersachsen (Lower Saxony)", false, 0); ("Nordrhein-Westfalen (NRW)", false, 0);
     ("Hessen (Hesse)", false, 0); ("Rheinland-Pfalz (Rhineland-Palatinate)", false, 0);
     ("Saarland", false, 0); ("Baden-Württemberg", false, 0);
     ("Sachsen-Anhalt (Saxony-Anhalt)", false, 0); ("Unknown", false, 0)].
Proof.
  unfold state_of_int.
  repeat match goal with
    | |- In (if ?c then _ else _) _ => destruct c; [cbn; tauto |]
    end.
  cbn; tauto.
Qed.

(** The Saarland branch is never taken: its range 66000..66999 lies
    inside the range 65000..66999 of the Hessen branch before it. *)
Lemma state_of_int_not_saarland (n : Z) :
  fst (fst (state_of_int n)) <> "Saarland".
Proof.
  unfold state_of_int.
  repeat match goal with
    | |- fst (fst (if ?c then _ else _)) <> _ =>
        destruct c eqn:?; [cbn; discriminate |]
    end.
  destruct (between 66000 n 66999) eqn:Hs.
  - exfalso.
    match goal with
    | H : _ || between 65000 n 66999 = false |- _ =>
        apply orb_false_iff in H as [_ H]; revert H Hs
    end.
    unfold between. intros H1 H2.
    apply andb_false_iff in H1. apply andb_true_iff in H2.
    rewrite !Z.leb_gt, !Z.leb_le in *. lia.
  - repeat match goal with
      | |- fst (fst (if ?c then _ else _)) <> _ =>
          destruct c eqn:?; [cbn; discriminate |]
      end.
    cbn; discriminate.
Qed.

Lemma check_codes_spec (fuel : nat) (p : Z -> bool) :
  forall n, check_codes fuel n p = true ->
  forall m, n <= m < n + Z.of_nat fuel -> p m = true.
Proof.
  induction fuel as [|fuel IH]; intros n H m Hm; [lia|].
  cbn [check_codes] in H. apply andb_true_iff in H as [Hn Hrest].
  destruct (Z.eq_dec m n) as [-> | Hne]; [exact Hn|].
  apply (IH (n + 1) Hrest). lia.
Qed.

(** A property checked on every code from 0 to 99999 holds on that range. *)
Lemma forall_codes (p : Z -> bool) :
  check_codes (Z.to_nat 100000) 0 p = true ->
  forall n, 0 <= n <= 99999 -> p n = true.
Proof.
  intros H n Hn. apply (check_codes_spec _ _ _ H).
  rewrite Z2Nat.id; lia.
Qed.

(** The codes that no branch accepts, as a test. *)
Local Abbreviation in_no_range n :=
  ((n <? 1000) || between 2000 n 2599 || between 5000 n 5999 || between 8000 n 9999
   || between 90000 n 90999 || between 95000 n 95999 || (99999 <? n)).

Lemma in_no_range_iff (n : Z) :
  in_no_range n = true
  <-> n < 1000 \/ 2000 <= n <= 2599 \/ 5000 <= n <= 5999 \/ 8000 <= n <= 9999
      \/ 90000 <= n <= 90999 \/ 95000 <= n <= 95999 \/ 99999 < n.
Proof.
  unfold between.
  rewrite !orb_true_iff, !andb_true_iff, !Z.leb_le, !Z.ltb_lt. tauto.
Qed.

Lemma state_of_int_unknown_iff (n : Z) :
  state_of_int n = unknown_region <-> in_no_range n = true.
Proof.
  destruct (Z.lt_ge_cases n 0) as [Hneg | Hpos];
    [| destruct (Z.le_gt_cases n 99999) as [Hle | Hgt]].
  - rewrite state_of_int_out_of_range by lia.
    rewrite in_no_range_iff. split; [lia | reflexivity].
  - pose proof (forall_codes
        (fun n => Bool.eqb (String.eqb (fst (fst (state_of_int n))) "Unknown")
                    (in_no_range n))) as H.
    specialize (H ltac:(vm_compute; reflexivity) n (conj Hpos Hle)).
    apply eqb_prop in H. rewrite <- H.
    split.
    + intros ->. reflexivity.
    + intros Hu. apply String.eqb_eq in Hu.
      pose proof (state_of_int_cases n) as Hc. cbn in Hc.
      repeat (destruct Hc as [Hc | Hc];
              [rewrite <- Hc in Hu |- *; cbn in Hu; (discriminate Hu || reflexivity) |]).
      contradiction.
  - rewrite state_of_int_out_of_range by lia.
    rewrite in_no_range_iff. split; [lia | reflexivity].
Qed.

End TableFacts.

(** X1. Whatever [get_state_from_plz] returns, the family-benefit flag
    and the amount agree: the flag is set exactly when the amount is above
    0, exactly for Bayern, Sachsen and Thüringen, and the amount is 0, 200
    or 250. *)
Theorem get_state_from_plz_flag_matches_amount
    (plz : plz_arg) (name : string) (flag : bool) (amount : Z) :
  get_state_from_plz plz = Returns (name, flag, amount) ->
  (flag = true <-> 0 < amount)
  /\ (flag = true <->
      name = "Bayern (Bavaria)"%string \/ name = "Sachsen (Saxony)"%string
      \/ name = "Thüringen (Thuringia)"%string)
  /\ (amount = 0 \/ amount = 200 \/ amount = 250).
Proof.
  intros H.
  assert (Hs : exists n, state_of_int n = (name, flag, amount)).
  { unfold get_state_from_plz in H.
    destruct (int_of_plz plz) as [e | n]; [discriminate H|].
    exists n. cbn in H. now injection H. }
  destruct Hs as [n Hn].
  pose proof (state_of_int_cases n) as Hc. rewrite Hn in Hc. cbn in Hc.
  repeat (destruct Hc as [Hc | Hc];
          [injection Hc as <- <- <-;
           repeat split; intros; try discriminate; try lia; auto;
           repeat match goal with H : _ \/ _ |- _ => destruct H end;
           discriminate |]).
  contradiction.
Qed.

Lemma get_state_from_plz_flag_matches_amount_witness :
  (true = true <-> 0 < 200)
  /\ (true = true <->
      "Sachsen (Saxony)"%string = "Bayern (Bavaria)"%string
      \/ "Sachsen (Saxony)"%string = "Sachsen (Saxony)"%string
      \/ "Sachsen (Saxony)"%string = "Thüringen (Thuringia)"%string)
  /\ (200 = 0 \/ 200 = 200 \/ 200 = 250).
Proof.
  apply (get_state_from_plz_flag_matches_amount (PlzStr "01067")). reflexivity.
Defined.

(** X2. [get_state_from_plz] never returns Saarland: the codes
    66000..66999 of its branch are taken by the Hessen branch before it. *)
Theorem get_state_from_plz_never_saarland (plz : plz_arg) (r : region) :
  get_state_from_plz plz = Returns r ->
  fst (fst r) <> "Saarland"%string
  /\ forall n, 66000 <= n <= 66999 ->
       get_state_from_plz (PlzInt n) = Returns ("Hessen (Hesse)"%string, false, 0).
Proof.
  intros H. split.
  - unfold get_state_from_plz in H.
    destruct (int_of_plz plz) as [e | n]; [discriminate H|].
    cbn in H. injection H as <-. apply state_of_int_not_saarland.
  - intros n Hn. unfold get_state_from_plz. cbn [int_of_plz bind ret Monad_either].
    f_equal.
    cbv beta delta [state_of_int Py.between];
    repeat match goal with
      | |- context [(?a <=? ?b)%Z] => destruct (Z.leb_spec a b); try lia
      end;
    reflexivity.
Qed.

Lemma get_state_from_plz_never_saarland_witness :
  fst (fst ("Hessen (Hesse)"%string, false, 0)) <> "Saarland"%string
  /\ get_state_from_plz (PlzInt 66111) = Returns ("Hessen (Hesse)"%string, false, 0).
Proof.
  destruct (get_state_from_plz_never_saarland (PlzStr "66111")
              ("Hessen (Hesse)"%string, false, 0) eq_refl) as [H1 H2].
  split; [exact H1 | apply H2; lia].
Defined.

(** X3. Where two branches overlap the earlier one wins: 14400..14999 is
    Berlin (not Brandenburg), 26000..26999 is Bremen (not Niedersachsen),
    34000..36999 is Nordrhein-Westfalen (not Hessen) and 38000..38999 is
    Niedersachsen (not Sachsen-Anhalt). *)
Theorem get_state_from_plz_first_match (n : Z) :
  (14400 <= n <= 14999 ->
   get_state_from_plz (PlzInt n) = Returns ("Berlin"%string, false, 0))
  /\ (26000 <= n <= 26999 ->
      get_state_from_plz (PlzInt n) = Returns ("Bremen"%string, false, 0))
  /\ (34000 <= n <= 36999 ->
      get_state_from_plz (PlzInt n)
      = Returns ("Nordrhein-Westfalen (NRW)"%string, false, 0))
  /\ (38000 <= n <= 38999 ->
      get_state_from_plz (PlzInt n)
      = Returns ("Niedersachsen (Lower Saxony)"%string, false, 0)).
Proof.
  unfold get_state_from_plz. cbn [int_of_plz bind ret Monad_either].
  repeat split; intros Hn; f_equal;
    cbv beta delta [state_of_int Py.between];
    repeat match goal with
      | |- context [(?a <=? ?b)%Z] => destruct (Z.leb_spec a b); try lia
      end;
    reflexivity.
Qed.

Lemma get_state_from_plz_first_match_witness :
  get_state_from_plz (PlzInt 14467) = Returns ("Berlin"%string, false, 0)
  /\ get_state_from_plz (PlzInt 26121) = Returns ("Bremen"%string, false, 0)
  /\ get_state_from_plz (PlzInt 34117)
     = Returns ("Nordrhein-Westfalen (NRW)"%string, false, 0)
  /\ get_state_from_plz (PlzInt 38100)
     = Returns ("Niedersachsen (Lower Saxony)"%string, false, 0).
Proof.
  pose proof (get_state_from_plz_first_match 14467) as (H1 & _).
  pose proof (get_state_from_plz_first_match 26121) as (_ & H2 & _).
  pose proof (get_state_from_plz_first_match 34117) as (_ & _ & H3 & _).
  pose proof (get_state_from_plz_first_match 38100) as (_ & _ & _ & H4).
  split; [apply H1; lia|]. split; [apply H2; lia|].
  split; [apply H3; lia | apply H4; lia].
Defined.

(** X4. On an integer, [get_state_from_plz] returns the sentinel
    [("Unknown", False, 0)] exactly for the codes below 1000, in
    2000..2599, 5000..5999, 8000..9999, 90000..90999, 95000..95999 and
    above 99999; every other integer gets a named state. *)
Theorem get_state_from_plz_unknown_iff (n : Z) :
  get_state_from_plz (PlzInt n) = Returns unknown_region
  <-> n < 1000 \/ 2000 <= n <= 2599 \/ 5000 <= n <= 5999 \/ 8000 <= n <= 9999
      \/ 90000 <= n <= 90999 \/ 95000 <= n <= 95999 \/ 99999 < n.
Proof.
  rewrite <- in_no_range_iff, <- state_of_int_unknown_iff.
  unfold get_state_from_plz. cbn [int_of_plz bind ret Monad_either].
  split; [intros H; now injection H | intros ->; reflexivity].
Qed.

Lemma get_state_from_plz_unknown_iff_witness :
  get_state_from_plz (PlzInt 90402) = Returns unknown_region.
Proof.
  apply get_state_from_plz_unknown_iff. lia.
Defined.

(** ** The severance tax *)

(** X5. The result of [calculate_fuenftelregelung_tax] does not depend on
    the annual salary: the net severance is [severance * net_rate], and the
    effective rate is [1 - net_rate] for a severance above 0 and 0
    otherwise. *)
Theorem fuenftelregelung_tax_ignores_salary
    (annual_salary annual_salary' severance_amount net_rate : Q) :
  exists net tax rate net' tax' rate',
    calculate_fuenftelregelung_tax annual_salary severance_amount net_rate
    = Returns (net, tax, rate)
    /\ calculate_fuenftelregelung_tax annual_salary' severance_amount net_rate
       = Returns (net', tax', rate')
    /\ (net == net')%Q /\ (tax == tax')%Q /\ (rate == rate')%Q
    /\ (net == severance_amount * net_rate)%Q
    /\ ((0 < severance_amount)%Q -> (rate == 1 - net_rate)%Q)
    /\ ((severance_amount <= 0)%Q -> rate = 0%Q).
Proof.
  rewrite !calculate_fuenftelregelung_tax_returns.
  do 6 eexists. split; [reflexivity|]. split; [reflexivity|].
  pose proof (total_sev_tax_of_flat annual_salary severance_amount net_rate) as Ht.
  pose proof (total_sev_tax_of_flat annual_salary' severance_amount net_rate) as Ht'.
  split; [now rewrite Ht, Ht'|].
  split; [now rewrite Ht, Ht'|].
  destruct (Py.gt severance_amount 0) eqn:E.
  - apply gt_true in E.
    assert (Hnz : ~ (severance_amount == 0)%Q)
      by (intros H; rewrite H in E; now apply Qlt_irrefl in E).
    split; [now rewrite Ht, Ht'|].
    split; [rewrite Ht; ring|].
    split.
    + intros _. rewrite Ht. now field.
    + intros H. exfalso. apply (Qlt_irrefl 0).
      now apply Qlt_le_trans with severance_amount.
  - apply gt_false in E.
    split; [reflexivity|].
    split; [rewrite Ht; ring|].
    split; [|reflexivity].
    intros H. exfalso. apply (Qlt_irrefl 0).
    now apply Qlt_le_trans with severance_amount.
Qed.

Lemma fuenftelregelung_tax_ignores_salary_witness :
  exists net tax rate net' tax' rate',
    calculate_fuenftelregelung_tax 90000 45000 0.67 = Returns (net, tax, rate)
    /\ calculate_fuenftelregelung_tax 30000 45000 0.67 = Returns (net', tax', rate')
    /\ (net == net')%Q /\ (rate == 1 - 0.67)%Q.
Proof.
  destruct (fuenftelregelung_tax_ignores_salary 90000 30000 45000 0.67)
    as (net & tax & rate & net' & tax' & rate' & H1 & H2 & H3 & _ & _ & _ & H7 & _).
  exists net, tax, rate, net', tax', rate'.
  repeat split; [exact H1 | exact H2 | exact H3 | apply H7; reflexivity].
Defined.

(** ** The scenario dictionary *)

Section ScenarioTotals.
Local Open Scope Q_scope.

Variables (annual_salary severance_months : Q) (tax_class : string).
Variables (has_children : bool) (monthly_expenses : Q).
Variables (sperrzeit num_children : Z) (state : string).
Variables (has_fg : bool) (fg_amount : Z) (child_ages : option (list Z)).
Variable months_worked : Z.

(** The keys of the returned dictionary that
    [calculate_scenario_returns] leaves out. *)
Lemma calculate_scenario_totals (r : scenario) :
  calculate_scenario annual_salary severance_months tax_class has_children
    monthly_expenses sperrzeit num_children state has_fg fg_amount child_ages
    months_worked = Returns r ->
  salary_2026 r = monthly_net r * months_worked
  /\ total_2026 r
     = salary_2026 r + net_severance r + alg1_2026 r + kindergeld_2026 r
       + familiengeld_2026 r
  /\ total_2027 r = alg1_2027 r + kindergeld_2027 r + familiengeld_2027 r
  /\ total_2_years r = total_2026 r + total_2027 r
  /\ income_percentage_2026 r
     = (if Py.gt annual_salary 0 then total_2026 r / annual_salary * 100 else 0)
  /\ income_percentage_2027 r
     = (if Py.gt annual_salary 0 then total_2027 r / annual_salary * 100 else 0)
  /\ cash_after_exit_2026 r
     = net_severance r + alg1_2026 r + kindergeld_2026 r + familiengeld_2026 r
  /\ cash_after_exit_2027 r = alg1_2027 r + kindergeld_2027 r + familiengeld_2027 r
  /\ total_income_after_exit r = cash_after_exit r
  /\ num_eligible_familiengeld r
     = (if has_children && has_fg && child_ages_truthy child_ages
        then count_eligible child_ages else 0%Z)
  /\ months_worked_2026 r = months_worked
  /\ sperrzeit_months r = sperrzeit
  /\ state_name r = state
  /\ has_familiengeld r = has_fg.
Proof.
  unfold calculate_scenario.
  rewrite (div_returns annual_salary 12) by discriminate.
  cbn [bind ret Monad_either].
  rewrite calculate_fuenftelregelung_tax_returns.
  cbn [bind ret Monad_either].
  destruct (Py.gt annual_salary 0) eqn:Hs.
  - apply gt_true in Hs.
    assert (Hnz : ~ annual_salary == 0)
      by (intros H; rewrite H in Hs; now apply Qlt_irrefl in Hs).
    rewrite !(div_returns _ annual_salary Hnz).
    cbn [bind ret Monad_either].
    rewrite guarded_div_returns.
    intros Hr; injection Hr as <-.
    cbn -[Qplus Qmult Qminus Qdiv Z.mul Z.sub Z.add Z.max inject_Z].
    repeat split.
  - rewrite guarded_div_returns.
    intros Hr; injection Hr as <-.
    cbn -[Qplus Qmult Qminus Qdiv Z.mul Z.sub Z.add Z.max inject_Z].
    repeat split.
Qed.

End ScenarioTotals.

(** Names a returned dictionary and brings every assignment of
    [calculate_scenario] into the context. *)
Ltac scenario_facts r Hr :=
  match goal with
  | |- context [calculate_scenario ?a ?sm ?tc ?hc ?me ?sp ?nc ?st ?hf ?fa ?ca ?mw] =>
      let H := fresh "H" in
      let H' := fresh "H" in
      destruct (calculate_scenario_returns a sm tc hc me sp nc st hf fa ca mw)
        as (r & Hr & H);
      pose proof (calculate_scenario_totals a sm tc hc me sp nc st hf fa ca mw r Hr)
        as H';
      decompose [and] H; decompose [and] H'; clear H H'
  end.

(** X7. For any integers, the benefit months of the two years add up to
    [max(12, 12 - months_worked - sperrzeit)]: the 12-month cap holds
    exactly when [months_worked + sperrzeit >= 0], and a negative sum
    breaks it. *)
Theorem benefit_months_total_general
    (annual_salary severance_months : Q) (tax_class : string) (has_children : bool)
    (monthly_expenses : Q) (sperrzeit num_children : Z) (state : string)
    (has_fg : bool) (fg_amount : Z) (child_ages : option (list Z)) (months_worked : Z) :
  exists r,
    calculate_scenario annual_salary severance_months tax_class has_children
      monthly_expenses sperrzeit num_children state has_fg fg_amount child_ages
      months_worked = Returns r
    /\ total_alg1_months r = Z.max 12 (12 - months_worked - sperrzeit)
    /\ 0 <= months_alg1_2026 r /\ 0 <= months_alg1_2027 r <= 12
    /\ (total_alg1_months r <= 12 <-> 0 <= months_worked + sperrzeit).
Proof.
  scenario_facts r Hr.
  exists r. split; [exact Hr|]. lia.
Qed.

(** ** Children and family benefit *)

Section CountFacts.

Lemma fold_left_add_shift (l : list Z) (acc : Z) :
  fold_left Z.add l acc = acc + fold_left Z.add l 0.
Proof.
  revert acc. induction l as [|x l IH]; intros acc; cbn [fold_left]; [lia|].
  rewrite (IH (acc + x)), (IH (0 + x)). lia.
Qed.

(** [sum(1 for _ in l)] is the length of [l]. *)
Lemma sum_ones {A : Type} (l : list A) :
  Py.sum (map (fun _ => 1) l) = Z.of_nat (List.length l).
Proof.
  unfold Py.sum. induction l as [|x l IH]; [reflexivity|].
  cbn [map fold_left List.length]. rewrite fold_left_add_shift, IH. lia.
Qed.

(** The ages that count: 1, 2 and 3. *)
Lemma count_eligible_length (ages : list Z) :
  count_eligible (Some ages)
  = Z.of_nat (List.length (filter (fun age => (1 <=? age) && (age <=? 3)) ages)).
Proof. unfold count_eligible. apply sum_ones. Qed.

Lemma count_eligible_bounds (child_ages : option (list Z)) :
  0 <= count_eligible child_ages
       <= Z.of_nat (List.length (match child_ages with Some ages => ages | None => [] end)).
Proof.
  destruct child_ages as [ages|]; [|cbn; lia].
  rewrite count_eligible_length.
  pose proof (filter_length_le (fun age => (1 <=? age) && (age <=? 3)) ages). lia.
Qed.

End CountFacts.

(** X9. The number of children that [calculate_scenario] counts for the
    family benefit is the number of ages in 1..3 when both
    [has_children] and [has_familiengeld] hold and 0 otherwise; it never
    exceeds the length of [child_ages], and the monthly family benefit is
    the amount times that number in every case. *)
Theorem family_benefit_counts_ages_1_to_3
    (annual_salary severance_months : Q) (tax_class : string) (has_children : bool)
    (monthly_expenses : Q) (sperrzeit num_children : Z) (state : string)
    (has_fg : bool) (fg_amount : Z) (ages : list Z) (months_worked : Z) :
  exists r,
    calculate_scenario annual_salary severance_months tax_class has_children
      monthly_expenses sperrzeit num_children state has_fg fg_amount (Some ages)
      months_worked = Returns r
    /\ num_eligible_familiengeld r
       = (if has_children && has_fg
          then Z.of_nat (List.length (filter (fun age => (1 <=? age) && (age <=? 3)) ages))
          else 0)
    /\ 0 <= num_eligible_familiengeld r <= Z.of_nat (List.length ages)
    /\ familiengeld_monthly r = fg_amount * num_eligible_familiengeld r
    /\ familiengeld_2026 r = 12 * familiengeld_monthly r
    /\ familiengeld_2027 r = 12 * familiengeld_monthly r.
Proof.
  scenario_facts r Hr.
  exists r. split; [exact Hr|]. clear Hr.
  assert (Hfm : familiengeld_monthly r = fg_amount * num_eligible_familiengeld r).
  { match goal with H : familiengeld_monthly r = _ |- _ => rewrite H end.
    match goal with H : num_eligible_familiengeld r = _ |- _ => rewrite H end.
    destruct has_fg; [reflexivity|].
    rewrite andb_false_r. cbn. lia. }
  assert (Hn : num_eligible_familiengeld r
               = (if has_children && has_fg
                  then Z.of_nat (List.length (filter (fun age => (1 <=? age) && (age <=? 3)) ages))
                  else 0)).
  { match goal with H : num_eligible_familiengeld r = _ |- _ => rewrite H end.
    destruct (has_children && has_fg); [|reflexivity].
    destruct ages as [|age ages']; [reflexivity|].
    cbn [andb child_ages_truthy]. apply count_eligible_length. }
  split; [exact Hn|].
  split.
  { rewrite Hn. destruct (has_children && has_fg); [|lia].
    pose proof (filter_length_le (fun age => (1 <=? age) && (age <=? 3)) ages). lia. }
  split; [exact Hfm | lia].
Qed.

(** ** Signs and what the cash does not depend on *)

Section SignFacts.
Local Open Scope Q_scope.

Lemma Qplus_nonneg (x y : Q) : 0 <= x -> 0 <= y -> 0 <= x + y.
Proof.
  intros Hx Hy. setoid_replace 0 with (0 + 0) by ring.
  now apply Qplus_le_compat.
Qed.

Lemma inject_Z_nonneg (z : Z) : (0 <= z)%Z -> 0 <= inject_Z z.
Proof. intros H. rewrite Zle_Qle in H. exact H. Qed.

Lemma net_rate_bounds (tax_class : string) :
  let net_rate := if String.eqb tax_class "Tax Class 3 (Married)" then 0.67 else 0.60 in
  0 <= net_rate /\ 0 <= 1 - net_rate.
Proof.
  destruct (String.eqb tax_class "Tax Class 3 (Married)");
    split; apply Qle_bool_iff; reflexivity.
Qed.

End SignFacts.

(** Proves [0 <= e] for sums, products, quotients and guarded values of
    quantities known to be at least 0. *)
Ltac qnonneg :=
  match goal with
  | |- (0 <= ?x * ?y)%Q => apply Qmult_le_0_compat; qnonneg
  | |- (0 <= ?x + ?y)%Q => apply Qplus_nonneg; qnonneg
  | |- (0 <= ?x / ?y)%Q =>
      apply Qmult_le_0_compat; [qnonneg | apply Qinv_le_0_compat; qnonneg]
  | |- (0 <= inject_Z ?z)%Q => apply inject_Z_nonneg; lia
  | |- (0 <= (if ?b then _ else _))%Q => destruct b; qnonneg
  | |- _ => assumption
  | |- _ => apply Qle_bool_iff; reflexivity
  end.

(** X10. For a salary, severance months, months worked, number of
    children and family-benefit amount that are not negative, no money
    amount of the returned dictionary is negative: salary, severance (gross,
    tax, net), unemployment benefit, child and family benefit, the yearly
    and two-year totals, the cash after exit and the runway. *)
Theorem scenario_amounts_nonnegative
    (annual_salary severance_months : Q) (tax_class : string) (has_children : bool)
    (monthly_expenses : Q) (sperrzeit num_children : Z) (state : string)
    (has_fg : bool) (fg_amount : Z) (child_ages : option (list Z)) (months_worked : Z) :
  (0 <= annual_salary)%Q -> (0 <= severance_months)%Q ->
  0 <= months_worked -> 0 <= num_children -> 0 <= fg_amount ->
  exists r,
    calculate_scenario annual_salary severance_months tax_class has_children
      monthly_expenses sperrzeit num_children state has_fg fg_amount child_ages
      months_worked = Returns r
    /\ (0 <= monthly_gross r)%Q /\ (0 <= monthly_net r)%Q /\ (0 <= salary_2026 r)%Q
    /\ (0 <= gross_severance r)%Q /\ (0 <= sev_tax r)%Q /\ (0 <= net_severance r)%Q
    /\ (0 <= sev_tax_rate r)%Q
    /\ (0 <= alg1_monthly r)%Q /\ (0 <= alg1_2026 r)%Q /\ (0 <= alg1_2027 r)%Q
    /\ 0 <= kindergeld_2026 r /\ 0 <= kindergeld_2027 r
    /\ 0 <= familiengeld_2026 r /\ 0 <= familiengeld_2027 r
    /\ (0 <= total_2026 r)%Q /\ (0 <= total_2027 r)%Q /\ (0 <= total_2_years r)%Q
    /\ (0 <= cash_after_exit_2026 r)%Q /\ (0 <= cash_after_exit_2027 r)%Q
    /\ (0 <= cash_after_exit r)%Q /\ (0 <= runway_months r)%Q.
Proof.
  intros Ha Hsm Hmw Hnc Hfa.
  scenario_facts r Hr.
  exists r. split; [exact Hr|]. clear Hr.
  destruct (net_rate_bounds tax_class) as [Hnr Hnr'].
  assert (Hmg : (0 <= monthly_gross r)%Q).
  { match goal with H : monthly_gross r = _ |- _ => rewrite H end. qnonneg. }
  assert (Hmn : (0 <= monthly_net r)%Q).
  { match goal with H : monthly_net r = _ |- _ => rewrite H end. qnonneg. }
  assert (Hsal : (0 <= salary_2026 r)%Q).
  { match goal with H : salary_2026 r = _ |- _ => rewrite H end. qnonneg. }
  assert (Hgs : (0 <= gross_severance r)%Q).
  { match goal with H : gross_severance r = _ |- _ => rewrite H end. qnonneg. }
  assert (Htax : (0 <= sev_tax r)%Q).
  { match goal with H : sev_tax r = _ |- _ => rewrite H end.
    rewrite total_sev_tax_of_flat. qnonneg. }
  assert (Hnet : (0 <= net_severance r)%Q).
  { match goal with H : net_severance r = _ |- _ => rewrite H end.
    match goal with H : sev_tax r = _ |- _ => rewrite H end.
    rewrite total_sev_tax_of_flat.
    setoid_replace (gross_severance r
                    - gross_severance r
                      * (1 - (if String.eqb tax_class "Tax Class 3 (Married)"
                              then 0.67 else 0.60)))%Q
      with (gross_severance r
            * (if String.eqb tax_class "Tax Class 3 (Married)" then 0.67 else 0.60))%Q
      by ring.
    qnonneg. }
  assert (Hrate : (0 <= sev_tax_rate r)%Q).
  { match goal with H : sev_tax_rate r = _ |- _ => rewrite H end. qnonneg. }
  assert (Ham : (0 <= alg1_monthly r)%Q).
  { match goal with H : alg1_monthly r = _ |- _ => rewrite H end. qnonneg. }
  assert (Ha26 : (0 <= alg1_2026 r)%Q).
  { match goal with H : alg1_2026 r = _ |- _ => rewrite H end. qnonneg. }
  assert (Ha27 : (0 <= alg1_2027 r)%Q).
  { match goal with H : alg1_2027 r = _ |- _ => rewrite H end. qnonneg. }
  assert (Hkm : 0 <= kindergeld_monthly r).
  { match goal with H : kindergeld_monthly r = _ |- _ => rewrite H end.
    destruct has_children; lia. }
  assert (Hfm : 0 <= familiengeld_monthly r).
  { match goal with H : familiengeld_monthly r = _ |- _ => rewrite H end.
    pose proof (count_eligible_bounds child_ages) as [Hc _].
    destruct has_fg; [|lia].
    destruct (has_children && true && child_ages_truthy child_ages); nia. }
  assert (Hk26 : 0 <= kindergeld_2026 r) by lia.
  assert (Hk27 : 0 <= kindergeld_2027 r) by lia.
  assert (Hf26 : 0 <= familiengeld_2026 r) by lia.
  assert (Hf27 : 0 <= familiengeld_2027 r) by lia.
  assert (Ht26 : (0 <= total_2026 r)%Q).
  { match goal with H : total_2026 r = _ |- _ => rewrite H end. qnonneg. }
  assert (Ht27 : (0 <= total_2027 r)%Q).
  { match goal with H : total_2027 r = _ |- _ => rewrite H end. qnonneg. }
  assert (Ht : (0 <= total_2_years r)%Q).
  { match goal with H : total_2_years r = _ |- _ => rewrite H end. qnonneg. }
  assert (Hc26 : (0 <= cash_after_exit_2026 r)%Q).
  { match goal with H : cash_after_exit_2026 r = _ |- _ => rewrite H end. qnonneg. }
  assert (Hc27 : (0 <= cash_after_exit_2027 r)%Q).
  { match goal with H : cash_after_exit_2027 r = _ |- _ => rewrite H end. qnonneg. }
  assert (Hc : (0 <= cash_after_exit r)%Q).
  { match goal with H : cash_after_exit r = _ |- _ => rewrite H end. qnonneg. }
  assert (Hrun : (0 <= runway_months r)%Q).
  { match goal with H : runway_months r = _ |- _ => rewrite H end.
    destruct (Py.gt monthly_expenses 0) eqn:E; [|apply Qle_refl].
    apply gt_true in E.
    apply Qmult_le_0_compat; [exact Hc|].
    apply Qinv_le_0_compat. now apply Qlt_le_weak. }
  repeat split; assumption.
Qed.

Lemma scenario_amounts_nonnegative_witness :
  exists r,
    calculate_scenario 90000 6 "Tax Class 3 (Married)" true 3000 3 2
      "Bayern (Bavaria)" true 250 (Some [2; 5]) 6 = Returns r
    /\ (0 <= net_severance r)%Q /\ (0 <= cash_after_exit r)%Q
    /\ (0 <= runway_months r)%Q.
Proof.
  destruct (scenario_amounts_nonnegative 90000 6 "Tax Class 3 (Married)" true 3000 3 2
              "Bayern (Bavaria)" true 250 (Some [2; 5]) 6) as (r & Hr & H);
    try (discriminate || lia).
  exists r. split; [exact Hr|]. decompose [and] H. repeat split; assumption.
Defined.

(** With the two benefit-month counts adding up to 12, the cash after exit
    has a form in which neither count occurs. *)
Lemma cash_after_exit_closed_form (r : scenario) :
  months_alg1_2026 r + months_alg1_2027 r = 12 ->
  alg1_2026 r = (alg1_monthly r * months_alg1_2026 r)%Q ->
  alg1_2027 r = (alg1_monthly r * months_alg1_2027 r)%Q ->
  kindergeld_2026 r = kindergeld_monthly r * 12 ->
  kindergeld_2027 r = kindergeld_monthly r * 12 ->
  familiengeld_2026 r = familiengeld_monthly r * 12 ->
  familiengeld_2027 r = familiengeld_monthly r * 12 ->
  cash_after_exit r
  = (net_severance r + alg1_2026 r + alg1_2027 r + kindergeld_2026 r
     + kindergeld_2027 r + familiengeld_2026 r + familiengeld_2027 r)%Q ->
  (cash_after_exit r
   == net_severance r + 12 * alg1_monthly r
      + 24 * inject_Z (kindergeld_monthly r) + 24 * inject_Z (familiengeld_monthly r))%Q.
Proof.
  intros Hsum Ha26 Ha27 Hk26 Hk27 Hf26 Hf27 Hcash.
  rewrite Hcash, Ha26, Ha27, Hk26, Hk27, Hf26, Hf27.
  replace (months_alg1_2027 r) with (12 - months_alg1_2026 r) by lia.
  unfold Zminus. rewrite inject_Z_plus, inject_Z_opp, !inject_Z_mult.
  change (inject_Z 12) with 12%Q. ring.
Qed.

(** X11. In exact arithmetic, within months worked 1..12 and a sperrzeit
    of 0 or more, neither of the two changes the cash after exit or the
    runway: the cash is the net severance plus 12 months of unemployment
    benefit plus 24 months of child and family benefit.  (In binary64 the
    two results can differ in their last digits, as the benefit is added
    up in two parts whose sizes depend on both inputs.) *)
Theorem cash_independent_of_sperrzeit
    (annual_salary severance_months : Q) (tax_class : string) (has_children : bool)
    (monthly_expenses : Q) (sperrzeit sperrzeit' num_children : Z) (state : string)
    (has_fg : bool) (fg_amount : Z) (child_ages : option (list Z))
    (months_worked months_worked' : Z) :
  1 <= months_worked <= 12 -> 0 <= sperrzeit ->
  1 <= months_worked' <= 12 -> 0 <= sperrzeit' ->
  exists r r',
    calculate_scenario annual_salary severance_months tax_class has_children
      monthly_expenses sperrzeit num_children state has_fg fg_amount child_ages
      months_worked = Returns r
    /\ calculate_scenario annual_salary severance_months tax_class has_children
         monthly_expenses sperrzeit' num_children state has_fg fg_amount child_ages
         months_worked' = Returns r'
    /\ (cash_after_exit r
        == net_severance r + 12 * alg1_monthly r
           + 24 * inject_Z (kindergeld_monthly r)
           + 24 * inject_Z (familiengeld_monthly r))%Q
    /\ (cash_after_exit r == cash_after_exit r')%Q
    /\ (runway_months r == runway_months r')%Q.
Proof.
  intros Hw Hs Hw' Hs'.
  destruct (calculate_scenario_returns annual_salary severance_months tax_class
              has_children monthly_expenses sperrzeit num_children state has_fg
              fg_amount child_ages months_worked) as (r & Hr & H).
  destruct (calculate_scenario_returns annual_salary severance_months tax_class
              has_children monthly_expenses sperrzeit' num_children state has_fg
              fg_amount child_ages months_worked') as (r' & Hr' & H').
  exists r, r'. split; [exact Hr|]. split; [exact Hr'|]. clear Hr Hr'.
  decompose [and] H; clear H. decompose [and] H'; clear H'.
  assert (Hc : (cash_after_exit r
                == net_severance r + 12 * alg1_monthly r
                   + 24 * inject_Z (kindergeld_monthly r)
                   + 24 * inject_Z (familiengeld_monthly r))%Q)
    by (apply cash_after_exit_closed_form; (assumption || lia)).
  assert (Hc' : (cash_after_exit r'
                 == net_severance r' + 12 * alg1_monthly r'
                    + 24 * inject_Z (kindergeld_monthly r')
                    + 24 * inject_Z (familiengeld_monthly r'))%Q)
    by (apply cash_after_exit_closed_form; (assumption || lia)).
  assert (Heq : (cash_after_exit r == cash_after_exit r')%Q).
  { rewrite Hc, Hc'.
    repeat match goal with
      | H : ?f r = _ |- _ => progress rewrite !H
      | H : ?f r' = _ |- _ => progress rewrite !H
      end.
    reflexivity. }
  split; [exact Hc|]. split; [exact Heq|].
  match goal with H : runway_months r = _ |- _ => rewrite H end.
  match goal with H : runway_months r' = _ |- _ => rewrite H end.
  destruct (Py.gt monthly_expenses 0); [|reflexivity].
  now rewrite Heq.
Qed.

Lemma cash_independent_of_sperrzeit_witness :
  exists r r',
    calculate_scenario 90000 6 "Tax Class 3 (Married)" false 3000 0 0
      "Bayern (Bavaria)" true 250 (Some []) 6 = Returns r
    /\ calculate_scenario 90000 6 "Tax Class 3 (Married)" false 3000 3 0
         "Bayern (Bavaria)" true 250 (Some []) 9 = Returns r'
    /\ (cash_after_exit r == cash_after_exit r')%Q
    /\ (runway_months r == runway_months r')%Q.
Proof.
  destruct (cash_independent_of_sperrzeit 90000 6 "Tax Class 3 (Married)" false 3000
              0 3 0 "Bayern (Bavaria)" true 250 (Some []) 6 9)
    as (r & r' & Hr & Hr' & _ & H1 & H2); try lia.
  exists r, r'. repeat split; assumption.
Defined.

(** ** What [main] shows *)

Section CandidateFacts.



End CandidateFacts.



Section OutcomeFacts.
Local Open Scope Q_scope.




End OutcomeFacts.





(** ** The length guard of the call site *)

Section ShortTexts.

Lemma digit_value_bounds (c : ascii) :
  Py.is_digit c = true -> 0 <= Py.digit_value c <= 9.
Proof.
  unfold Py.is_digit, Py.digit_value, Py.between.
  rewrite andb_true_iff, !Z.leb_le. lia.
Qed.

(** The digits of a text of length [k] denote a number below
    [(acc + 1) * 10^k]. *)
Lemma digits_bound (l : list ascii) :
  forall (acc : Z) (after_digit : bool) (v : Z),
    0 <= acc -> Py.digits acc after_digit l = Some v ->
    0 <= v < (acc + 1) * 10 ^ Z.of_nat (List.length l).
Proof.
  induction l as [|c l IH]; intros acc b v Hacc H; cbn [Py.digits] in H.
  - destruct b; [|discriminate H]. injection H as <-. cbn. lia.
  - assert (Hpow : 10 ^ Z.of_nat (List.length (c :: l))
                   = 10 * 10 ^ Z.of_nat (List.length l)).
    { cbn [List.length]. rewrite Nat2Z.inj_succ, Z.pow_succ_r; lia. }
    assert (Hpos : 0 < 10 ^ Z.of_nat (List.length l)) by (apply Z.pow_pos_nonneg; lia).
    rewrite Hpow.
    destruct (Py.is_digit c) eqn:Hd.
    + pose proof (digit_value_bounds c Hd) as Hv.
      apply IH in H; [|lia]. nia.
    + destruct (Ascii.eqb c "_" && b); [|discriminate H].
      apply IH in H; [|lia]. nia.
Qed.

Lemma lstrip_length (l : list ascii) :
  (List.length (Py.lstrip l) <= List.length l)%nat.
Proof.
  induction l as [|c l IH]; cbn [Py.lstrip List.length]; [lia|].
  destruct (Py.is_space c); cbn [List.length]; lia.
Qed.

Lemma strip_length (l : list ascii) :
  (List.length (Py.strip l) <= List.length l)%nat.
Proof.
  unfold Py.strip. rewrite length_rev.
  pose proof (lstrip_length (rev (Py.lstrip l))) as H.
  rewrite length_rev in H. pose proof (lstrip_length l). lia.
Qed.

Lemma length_list_ascii_of_string (s : string) :
  List.length (list_ascii_of_string s) = String.length s.
Proof. induction s as [|c s IH]; cbn; congruence. Qed.

(** A text of fewer than four characters denotes a number below 1000. *)
Lemma parse_int_short (s : string) (n : Z) :
  (String.length s < 4)%nat -> Py.parse_int s = Some n -> n < 1000.
Proof.
  intros Hlen H. unfold Py.parse_int in H.
  pose proof (strip_length (list_ascii_of_string s)) as Hs.
  rewrite length_list_ascii_of_string in Hs.
  assert (Hd : forall l v, (List.length l <= 3)%nat ->
                           Py.digits 0 false l = Some v -> 0 <= v < 1000).
  { intros l v Hl Hv. apply digits_bound in Hv; [|lia].
    assert (10 ^ Z.of_nat (List.length l) <= 10 ^ 3)
      by (apply Z.pow_le_mono_r; lia).
    lia. }
  destruct (Py.strip (list_ascii_of_string s)) as [|c l] eqn:Hstrip.
  - cbn in H. discriminate H.
  - cbn [List.length] in Hs.
    assert (Hall : Py.digits 0 false (c :: l) = Some n -> n < 1000)
      by (intros Hv; apply Hd in Hv; [lia | cbn [List.length]; lia]).
    assert (Hpos : Py.digits 0 false l = Some n -> n < 1000)
      by (intros Hv; apply Hd in Hv; lia).
    assert (Hneg : option_map Z.opp (Py.digits 0 false l) = Some n -> n < 1000).
    { destruct (Py.digits 0 false l) as [v|] eqn:Hv; [|discriminate].
      cbn. intros E. injection E as <-. apply Hd in Hv; lia. }
    destruct c as [[] [] [] [] [] [] [] []]; auto.
Qed.

End ShortTexts.

(** X16. The guard [plz and len(plz) >= 4] of the call site never changes
    the result: for every text, region resolution in [main] is what
    [get_state_from_plz] inside [try]/[except] alone gives, because a text
    of fewer than four characters either is no number or denotes a code
    below 1000, which is Unknown. *)
Theorem length_guard_redundant (plz : string) :
  main_resolve_region plz
  = catch (get_state_from_plz (PlzStr plz)) (fun _ => ret unknown_region).
Proof.
  unfold main_resolve_region.
  destruct (Py.truthy plz && (4 <=? Py.len plz)) eqn:G; [reflexivity|].
  assert (Hlen : (String.length plz < 4)%nat).
  { apply andb_false_iff in G as [G | G].
    - destruct plz; [cbn; lia | discriminate G].
    - apply Z.leb_gt in G. unfold Py.len in G. lia. }
  unfold get_state_from_plz, int_of_plz, Py.int_of_str.
  destruct (Py.parse_int plz) as [n|] eqn:Hp;
    cbn [bind ret raise catch Monad_either Exception_either]; [|reflexivity].
  rewrite state_of_int_out_of_range; [reflexivity|].
  left. exact (parse_int_short plz n Hlen Hp).
Qed.
